(** * MultiSelect: a searchable multi-select dropdown

    Shallow embedding of [src/components/profile/ui/MultiSelect.tsx]:
    the filter that computes the visible candidates, the event handlers
    ([toggleDropdown], [handleSelect], [handleRemove], [handleKeyDown],
    [handleClickOutside]), the JSX tree with its click handlers, and the
    mount effect that installs the document-level mousedown listener. *)

From Stdlib Require Import String Ascii List Bool Arith Lia.
Import ListNotations.
Open Scope string_scope.
Open Scope list_scope.

(** ** JavaScript built-ins used by the component *)

Module Js.

(** [s.startsWith(search)], the helper [includes] scans with. *)
Fixpoint startsWith (s search : string) : bool :=
  match search with
  | EmptyString => true
  | String c search' =>
      match s with
      | EmptyString => false
      | String d s' => Ascii.eqb c d && startsWith s' search'
      end
  end.

(** [String.prototype.includes]: [search] occurs in [s] at some offset. *)
Fixpoint includes (s search : string) : bool :=
  startsWith s search
  || match s with
     | EmptyString => false
     | String _ s' => includes s' search
     end.

(** Truthiness of a string: only the empty string is falsy. *)
Definition truthy (s : string) : bool :=
  match s with
  | EmptyString => false
  | String _ _ => true
  end.

(** Truthiness of an optional string prop ([undefined] is falsy). *)
Definition truthy_opt (s : option string) : bool :=
  match s with
  | None => false
  | Some s => truthy s
  end.

(** [Array.prototype.includes] on an array of strings: exact equality of
    the code-unit sequences. *)
Definition array_includes (l : list string) (x : string) : bool :=
  existsb (String.eqb x) l.

(** Lower-casing of one code unit in the ASCII range; every other code
    unit is its own lower case. *)
Definition lower_ascii (c : ascii) : ascii :=
  let n := nat_of_ascii c in
  if ((65 <=? n) && (n <=? 90))%nat then ascii_of_nat (n + 32) else c.

(** [String.prototype.toLowerCase] restricted to ASCII letters; the
    instance the concrete runs below are evaluated with. *)
Fixpoint toLowerCaseAscii (s : string) : string :=
  match s with
  | EmptyString => EmptyString
  | String c s' => String (lower_ascii c) (toLowerCaseAscii s')
  end.

(** [t] occurs in [s] as a contiguous substring. *)
Definition Substring (t s : string) : Prop :=
  exists a b, s = (a ++ t ++ b)%string.

End Js.

(** ** The component *)

Module MultiSelect.

(** [interface MultiSelectProps].  The [onChange] callback is observed
    through the [OnChange] calls the handlers make. *)
Record Props := mkProps {
  options : list string;
  selectedValues : list string;
  placeholder : string;
  error : option string
}.

(** Default of the [placeholder] prop. *)
Definition defaultPlaceholder : string := "Select options".

(** The two [useState] cells. *)
Record State := mkState {
  isOpen : bool;
  searchTerm : string
}.

(** [useState(false)], [useState('')]. *)
Definition initialState : State :=
  {| isOpen := false; searchTerm := "" |}.

(** The elements of the returned JSX tree. *)
Inductive Element : Type :=
| RootDiv                        (* div.relative, ref={dropdownRef} *)
| ContainerDiv                   (* the bordered field, onClick opens *)
| PlaceholderDiv
| ChipDiv (value : string)
| ChipLabel (value : string)
| RemoveButton (value : string)
| RemoveIcon (value : string)
| SearchInput                    (* ref={inputRef} *)
| ToggleWrapper
| ToggleButton
| ChevronIcon
| OverlayDiv
| MessageDiv
| OptionDiv (option : string)
| ErrorText.

(** The target of a document-level event: an element of this component
    or a node elsewhere in the document. *)
Inductive Node : Type :=
| Inside (e : Element)
| Outside.

(** What a handler does: state setters, the [onChange] callback and the
    focus request on the search input. *)
Inductive Action : Type :=
| SetIsOpen (b : bool)
| SetSearchTerm (s : string)
| OnChange (selected : list string)
| FocusInput.

(** Events the component listens to. *)
Inductive Event : Type :=
| Click (target : Element)
| MouseDown (target : Node)       (* document 'mousedown' *)
| InputChange (value : string)    (* onChange of the search input *)
| KeyDown (key : string).         (* onKeyDown of the search input *)

(** The overlay shows either a message or one row per candidate. *)
Inductive Dropdown : Type :=
| EmptyMessage (text : string)
| OptionRows (rows : list string).

(** What one render puts on screen. *)
Record View := mkView {
  placeholderText : option string;
  chips : list string;
  searchInput : option string;
  dropdown : option Dropdown;
  errorText : option string
}.

Definition Element_eq_dec (a b : Element) : {a = b} + {a <> b}.
Proof. decide equality; apply string_dec. Defined.

(** Parent of each element in the JSX tree. *)
Definition parent (e : Element) : option Element :=
  match e with
  | RootDiv => None
  | ContainerDiv => Some RootDiv
  | PlaceholderDiv => Some ContainerDiv
  | ChipDiv _ => Some ContainerDiv
  | ChipLabel v => Some (ChipDiv v)
  | RemoveButton v => Some (ChipDiv v)
  | RemoveIcon v => Some (RemoveButton v)
  | SearchInput => Some ContainerDiv
  | ToggleWrapper => Some ContainerDiv
  | ToggleButton => Some ToggleWrapper
  | ChevronIcon => Some ToggleButton
  | OverlayDiv => Some RootDiv
  | MessageDiv => Some OverlayDiv
  | OptionDiv _ => Some OverlayDiv
  | ErrorText => Some RootDiv
  end.

Fixpoint pathFrom (fuel : nat) (e : Element) : list Element :=
  e :: match fuel with
       | O => []
       | S k => match parent e with
                | None => []
                | Some p => pathFrom k p
                end
       end.

(** Propagation path of an event: the target and its ancestors, innermost
    first.  No element is deeper than four levels below the root. *)
Definition path (e : Element) : list Element := pathFrom 4 e.

(** [root.contains(target)]. *)
Definition contains (root : Element) (target : Node) : bool :=
  match target with
  | Inside e => if in_dec Element_eq_dec root (path e) then true else false
  | Outside => false
  end.

(** [dropdownRef.current]: the root div, attached while mounted. *)
Definition dropdownRef_current : option Element := Some RootDiv.

(** [inputRef.current]: the search input, which exists only while the
    committed render has [isOpen]. *)
Definition inputRef_current (st : State) : option Element :=
  if isOpen st then Some SearchInput else None.

(** *** Handlers *)

Definition toggleDropdown (st : State) : list Action :=
  [SetIsOpen (negb (isOpen st)); SetSearchTerm ""].

Definition handleSelect (p : Props) (st : State) (option : string)
  : list Action :=
  [OnChange (selectedValues p ++ [option]); SetSearchTerm ""]
  ++ match inputRef_current st with
     | Some _ => [FocusInput]
     | None => []
     end.

Definition handleRemove (p : Props) (option : string) : list Action :=
  [OnChange (filter (fun value => negb (String.eqb value option))
                    (selectedValues p))].

Definition handleKeyDown (key : string) : list Action :=
  if String.eqb key "Escape" then [SetIsOpen false] else [].

Definition handleClickOutside (target : Node) : list Action :=
  match dropdownRef_current with
  | Some root => if negb (contains root target) then [SetIsOpen false] else []
  | None => []
  end.

(** The [onClick] attribute of an element, if it has one: whether the
    handler calls [e.stopPropagation()], and what it does. *)
Definition onClick (p : Props) (st : State) (e : Element)
  : option (bool * list Action) :=
  match e with
  | ContainerDiv => Some (false, [SetIsOpen true])
  | RemoveButton value => Some (true, handleRemove p value)
  | ToggleButton => Some (true, toggleDropdown st)
  | OptionDiv option => Some (false, handleSelect p st option)
  | _ => None
  end.

(** A click bubbles from the target towards the root, running every
    [onClick] on the way until one stops the propagation.  All handlers
    read the state of the same render. *)
Fixpoint bubble (p : Props) (st : State) (els : list Element)
  : list Action :=
  match els with
  | [] => []
  | e :: rest =>
      match onClick p st e with
      | None => bubble p st rest
      | Some (stop, acts) => acts ++ if stop then [] else bubble p st rest
      end
  end.

Definition handle (p : Props) (st : State) (ev : Event) : list Action :=
  match ev with
  | Click target => bubble p st (path target)
  | MouseDown target => handleClickOutside target
  | InputChange value => [SetSearchTerm value]
  | KeyDown key => handleKeyDown key
  end.

(** Effect of one action on the [useState] cells. *)
Definition reduce (st : State) (a : Action) : State :=
  match a with
  | SetIsOpen b => {| isOpen := b; searchTerm := searchTerm st |}
  | SetSearchTerm s => {| isOpen := isOpen st; searchTerm := s |}
  | OnChange _ => st
  | FocusInput => st
  end.

(** The calls that leave the component. *)
Definition external (a : Action) : bool :=
  match a with
  | OnChange _ | FocusInput => true
  | SetIsOpen _ | SetSearchTerm _ => false
  end.

(** [useEffect(..., [isOpen])]: after a commit that changed [isOpen], the
    input is focused if the dropdown is now open. *)
Definition focusEffect (before after : State) : list Action :=
  if Bool.eqb (isOpen before) (isOpen after) then []
  else match inputRef_current after with
       | Some _ => if isOpen after then [FocusInput] else []
       | None => []
       end.

(** One event: run the handlers, commit the new state, run the effect. *)
Definition step (p : Props) (st : State) (ev : Event)
  : State * list Action :=
  let acts := handle p st ev in
  let st' := fold_left reduce acts st in
  (st', filter external acts ++ focusEffect st st').

(** The arguments [onChange] was called with, in order. *)
Fixpoint onChangeCalls (acts : list Action) : list (list string) :=
  match acts with
  | [] => []
  | OnChange l :: rest => l :: onChangeCalls rest
  | _ :: rest => onChangeCalls rest
  end.

Section Rendering.

(** [String.prototype.toLowerCase]; the development holds for any case
    mapping. *)
Variable toLowerCase : string -> string.

(** [filteredOptions] *)
Definition filteredOptions (p : Props) (st : State) : list string :=
  filter (fun option =>
            Js.includes (toLowerCase option) (toLowerCase (searchTerm st))
            && negb (Js.array_includes (selectedValues p) option))
         (options p).

(** The returned JSX, reduced to what it shows. *)
Definition render (p : Props) (st : State) : View :=
  {| placeholderText :=
       if (length (selectedValues p) =? 0)%nat && negb (isOpen st)
       then Some (placeholder p) else None;
     chips := selectedValues p;
     searchInput := if isOpen st then Some (searchTerm st) else None;
     dropdown :=
       if isOpen st then
         Some (if (length (filteredOptions p st) =? 0)%nat
               then EmptyMessage (if Js.truthy (searchTerm st)
                                  then "No options found"
                                  else "No options available")
               else OptionRows (filteredOptions p st))
       else None;
     errorText := if Js.truthy_opt (error p) then error p else None |}.

(** The candidate rows on screen. *)
Definition visibleCandidates (v : View) : list string :=
  match dropdown v with
  | Some (OptionRows rows) => rows
  | _ => []
  end.

(** The message on screen in place of the rows, if any. *)
Definition emptyMessage (v : View) : option string :=
  match dropdown v with
  | Some (EmptyMessage text) => Some text
  | _ => None
  end.

Definition isSome {A : Type} (o : option A) : bool :=
  match o with Some _ => true | None => false end.

(** Whether an element is in the tree of the current render. *)
Definition rendered (p : Props) (st : State) (e : Element) : bool :=
  let v := render p st in
  match e with
  | RootDiv | ContainerDiv | ToggleWrapper | ToggleButton | ChevronIcon =>
      true
  | PlaceholderDiv => isSome (placeholderText v)
  | ChipDiv x | ChipLabel x | RemoveButton x | RemoveIcon x =>
      Js.array_includes (chips v) x
  | SearchInput => isSome (searchInput v)
  | OverlayDiv => isSome (dropdown v)
  | MessageDiv => isSome (emptyMessage v)
  | OptionDiv o => Js.array_includes (visibleCandidates v) o
  | ErrorText => isSome (errorText v)
  end.

(** Whether the user can cause an event in the current render. *)
Definition enabled (p : Props) (st : State) (ev : Event) : bool :=
  match ev with
  | Click target => rendered p st target
  | MouseDown (Inside target) => rendered p st target
  | MouseDown Outside => true
  | InputChange _ => rendered p st SearchInput
  | KeyDown _ => rendered p st SearchInput
  end.

(** The host is expected to store the sequence [onChange] hands it and
    pass it back as [selectedValues]. *)
Definition feedBack (p : Props) (acts : list Action) : Props :=
  match rev (onChangeCalls acts) with
  | [] => p
  | l :: _ => {| options := options p; selectedValues := l;
                 placeholder := placeholder p; error := error p |}
  end.

(** A user session against such a host; [None] when an event targets
    something that is not on screen. *)
Fixpoint run (p : Props) (st : State) (evs : list Event)
  : option (Props * State * list Action) :=
  match evs with
  | [] => Some (p, st, [])
  | ev :: rest =>
      if enabled p st ev then
        let '(st', out) := step p st ev in
        match run (feedBack p out) st' rest with
        | Some (p'', st'', out') => Some (p'', st'', out ++ out')
        | None => None
        end
      else None
  end.

End Rendering.

End MultiSelect.

(** ** The mount effect and the document's listener list *)

Module Lifecycle.

(** Function objects registered on [document].  Every mount of the
    component creates its own [handleClickOutside] closure. *)
Inductive Listener : Type :=
| HandleClickOutside (instance : nat)
| Foreign (id : nat).

Definition Listener_eqb (a b : Listener) : bool :=
  match a, b with
  | HandleClickOutside i, HandleClickOutside j => Nat.eqb i j
  | Foreign i, Foreign j => Nat.eqb i j
  | _, _ => false
  end.

(** The event listener list of [document]: event type and callback. *)
Definition Document : Type := list (string * Listener).

Definition sameListener (ty : string) (l : Listener)
  (entry : string * Listener) : bool :=
  String.eqb (fst entry) ty && Listener_eqb (snd entry) l.

(** [document.addEventListener(ty, l)]: a listener already in the list is
    not added again. *)
Definition addEventListener (doc : Document) (ty : string) (l : Listener)
  : Document :=
  if existsb (sameListener ty l) doc then doc else doc ++ [(ty, l)].

(** [document.removeEventListener(ty, l)]. *)
Definition removeEventListener (doc : Document) (ty : string) (l : Listener)
  : Document :=
  filter (fun entry => negb (sameListener ty l entry)) doc.

(** Body of [useEffect(() => {...}, [])] for the closure of one mount. *)
Definition effectSetup (instance : nat) (doc : Document) : Document :=
  addEventListener doc "mousedown" (HandleClickOutside instance).

(** The function that effect returns. *)
Definition effectCleanup (instance : nat) (doc : Document) : Document :=
  removeEventListener doc "mousedown" (HandleClickOutside instance).

(** Why an instance leaves the tree. *)
Inductive Detach : Type :=
| ParentStoppedRendering
| KeyChanged
| RootUnmounted
| ErrorBoundaryReset.

(** What the framework does with the component. *)
Inductive Phase : Type :=
| Mount
| Update                    (* re-render: empty dependency list *)
| StrictReplay              (* development double invocation *)
| Unmount (cause : Detach).

Record World := mkWorld {
  document : Document;
  mounted : option nat;     (* the instance in the tree, if any *)
  fresh : nat               (* next closure identity *)
}.

(** Before the first mount: the document holds other code's listeners. *)
Definition initialWorld (others : list (string * nat)) : World :=
  {| document := map (fun e => (fst e, Foreign (snd e))) others;
     mounted := None;
     fresh := 0 |}.

(** Effects with an empty dependency list run once after mount; their
    cleanup runs when the instance is removed, whatever removes it. *)
Definition lifeStep (w : World) (ph : Phase) : World :=
  match ph, mounted w with
  | Mount, None =>
      {| document := effectSetup (fresh w) (document w);
         mounted := Some (fresh w);
         fresh := S (fresh w) |}
  | Mount, Some _ => w
  | Update, _ => w
  | StrictReplay, Some i =>
      {| document := effectSetup i (effectCleanup i (document w));
         mounted := Some i;
         fresh := fresh w |}
  | StrictReplay, None => w
  | Unmount _, Some i =>
      {| document := effectCleanup i (document w);
         mounted := None;
         fresh := fresh w |}
  | Unmount _, None => w
  end.

Definition lifeRun (w : World) (phs : list Phase) : World :=
  fold_left lifeStep phs w.

(** How many times a listener is registered for an event type. *)
Definition registrations (doc : Document) (ty : string) (l : Listener)
  : nat :=
  length (filter (sameListener ty l) doc).

(** The handler of the mounted instance is registered once, no other
    instance's handler is registered at all. *)
Definition Balanced (w : World) : Prop :=
  forall i,
    registrations (document w) "mousedown" (HandleClickOutside i)
    = match mounted w with
      | Some j => if Nat.eqb i j then 1 else 0
      | None => 0
      end.

End Lifecycle.

(** ** What the sequence of phases alone says about the instance *)

Module Mounting.
Import Lifecycle.

(** Whether the component is in the tree after one more phase: a mount
    puts it there, an unmount (for any cause) takes it out, a re-render or
    a replay of the effects changes nothing. *)
Definition attachStep (attached : bool) (ph : Phase) : bool :=
  match ph with
  | Mount => true
  | Unmount _ => false
  | Update | StrictReplay => attached
  end.

(** Whether the component is in the tree after a sequence of phases that
    starts before the first mount. *)
Definition attachedAfter (phs : list Phase) : bool :=
  fold_left attachStep phs false.

End Mounting.

(** ** Reference notions the component is compared with *)

Module Reference.

(** [kept] is [all] with exactly the entries satisfying [P] retained, in
    their original order and multiplicity. *)
Inductive Retained (P : string -> Prop) : list string -> list string -> Prop :=
| Retained_nil : Retained P [] []
| Retained_keep x all kept :
    P x -> Retained P all kept -> Retained P (x :: all) (x :: kept)
| Retained_drop x all kept :
    ~ P x -> Retained P all kept -> Retained P (x :: all) kept.

(** A candidate is offered when it is not selected and its lower-cased
    text contains the lower-cased search term. *)
Definition Offered (toLowerCase : string -> string)
  (selected : list string) (term : string) (c : string) : Prop :=
  ~ In c selected /\ Js.Substring (toLowerCase term) (toLowerCase c).

End Reference.

(** ** The button: [src/components/profile/ui/Button.tsx] *)

Module Button.

Inductive ButtonVariant : Type := Default | Outline | Text.

Inductive ButtonSize : Type := Sm | Md | Lg.

Inductive ButtonType : Type := TypeButton | Submit | Reset.

(** [interface ButtonProps], without [children] and [onClick], which are
    handed to the [button] element as they are. *)
Record ButtonProps := mkButtonProps {
  type : ButtonType;
  variant : ButtonVariant;
  size : ButtonSize;
  fullWidth : bool;
  disabled : bool;
  className : string
}.

(** The defaults of the destructured props. *)
Definition defaultProps : ButtonProps :=
  {| type := TypeButton; variant := Default; size := Md;
     fullWidth := false; disabled := false; className := "" |}.

Definition baseClasses : string :=
  "inline-flex items-center justify-center rounded-md font-medium transition-colors focus:outline-none focus:ring-2 focus:ring-offset-2 focus:ring-indigo-500".

Definition sizeClasses (s : ButtonSize) : string :=
  match s with
  | Sm => "px-3 py-1.5 text-sm"
  | Md => "px-4 py-2 text-sm"
  | Lg => "px-6 py-3 text-base"
  end.

Definition variantClasses (v : ButtonVariant) : string :=
  match v with
  | Default =>
      "bg-indigo-600 text-white hover:bg-indigo-700 disabled:bg-indigo-300"
  | Outline =>
      "border border-gray-300 bg-white text-gray-700 hover:bg-gray-50 disabled:text-gray-400 disabled:bg-gray-50"
  | Text =>
      "bg-transparent text-indigo-600 hover:bg-indigo-50 disabled:text-indigo-300"
  end.

Definition widthClasses (fullWidth : bool) : string :=
  if fullWidth then "w-full" else "".

(** The template literal: the five parts with one space between them,
    also around a part that is empty. *)
Definition buttonClasses (p : ButtonProps) : string :=
  (baseClasses ++ " " ++ sizeClasses (size p) ++ " "
   ++ variantClasses (variant p) ++ " " ++ widthClasses (fullWidth p) ++ " "
   ++ className p)%string.

End Button.

(** ** How the browser reads a [class] attribute *)

Module Dom.

(** ASCII whitespace: tab, line feed, form feed, carriage return, space. *)
Definition isAsciiWhitespace (c : ascii) : bool :=
  let n := nat_of_ascii c in
  ((n =? 9) || (n =? 10) || (n =? 12) || (n =? 13) || (n =? 32))%nat.

(** The pieces of a string between whitespace characters, empty pieces
    included. *)
Fixpoint splitOnWhitespace (s : string) : list string :=
  match s with
  | EmptyString => [EmptyString]
  | String c s' =>
      if isAsciiWhitespace c then EmptyString :: splitOnWhitespace s'
      else match splitOnWhitespace s' with
           | [] => [String c EmptyString]
           | w :: ws => String c w :: ws
           end
  end.

(** The class tokens of an attribute value: its non-empty pieces. *)
Definition classTokens (s : string) : list string :=
  filter Js.truthy (splitOnWhitespace s).

End Dom.

(** ** Concrete hosts used in the runs below *)

Module Scenarios.
Import MultiSelect.

Definition colours : Props :=
  {| options := ["Red"; "Green"; "Blue"];
     selectedValues := [];
     placeholder := defaultPlaceholder;
     error := None |}.

Definition twoSelected : Props :=
  {| options := ["Red"; "Green"; "Blue"];
     selectedValues := ["Red"; "Green"];
     placeholder := defaultPlaceholder;
     error := None |}.

Definition noOptions : Props :=
  {| options := [];
     selectedValues := [];
     placeholder := defaultPlaceholder;
     error := None |}.

Definition mixedCase : Props :=
  {| options := ["Red"; "red"];
     selectedValues := ["red"];
     placeholder := defaultPlaceholder;
     error := None |}.

End Scenarios.

Module Hosts.
Import MultiSelect.

(** The colour host with an error message and its own placeholder. *)
Definition coloursInError : Props :=
  {| options := ["Red"; "Green"; "Blue"];
     selectedValues := [];
     placeholder := "Pick colours";
     error := Some "Required" |}.

(** A host that has selected "Red". *)
Definition redSelected : Props :=
  {| options := ["Red"; "Green"; "Blue"];
     selectedValues := ["Red"];
     placeholder := defaultPlaceholder;
     error := None |}.

(** A host whose selection holds both spellings. *)
Definition bothCases : Props :=
  {| options := ["Red"; "red"];
     selectedValues := ["red"; "Red"];
     placeholder := defaultPlaceholder;
     error := None |}.

End Hosts.

(** * Properties *)

Import MultiSelect.

(** ** Built-ins *)

Section JsFacts.
Import Js.

Lemma startsWith_spec (s search : string) :
  startsWith s search = true <-> exists b, s = (search ++ b)%string.
Proof.
  revert s; induction search as [|c search IH]; intros s.
  - destruct s; simpl; split; intros _; eauto.
  - destruct s as [|d s]; cbn [startsWith].
    + split; [discriminate | intros [b Hb]; discriminate].
    + rewrite andb_true_iff, IH. split.
      * intros [Hcd [b ->]]. apply Ascii.eqb_eq in Hcd. subst. now exists b.
      * intros [b Hb]. injection Hb as -> ->. split.
        -- apply Ascii.eqb_refl.
        -- now exists b.
Qed.

Lemma includes_spec (s search : string) :
  includes s search = true <-> Substring search s.
Proof.
  unfold Substring. induction s as [|d s IH].
  - cbn [includes]. rewrite orb_false_r, startsWith_spec. split.
    + intros [b Hb]. now exists "", b.
    + intros [a [b Hab]]. destruct a; simpl in Hab.
      * now exists b.
      * discriminate.
  - cbn [includes]. rewrite orb_true_iff, startsWith_spec, IH. split.
    + intros [[b Hb] | [a [b Hab]]].
      * now exists "", b.
      * exists (String d a), b. simpl. now rewrite Hab.
    + intros [a [b Hab]]. destruct a as [|e a]; simpl in Hab.
      * left. now exists b.
      * right. injection Hab as _ Hs. now exists a, b.
Qed.

Lemma includes_empty (s : string) : includes s "" = true.
Proof. destruct s; reflexivity. Qed.

Lemma array_includes_spec (l : list string) (x : string) :
  array_includes l x = true <-> In x l.
Proof.
  unfold array_includes. rewrite existsb_exists. split.
  - intros [y [Hy Heq]]. apply String.eqb_eq in Heq. now subst.
  - intros Hx. exists x. split; [assumption | apply String.eqb_refl].
Qed.

Lemma array_includes_false (l : list string) (x : string) :
  array_includes l x = false <-> ~ In x l.
Proof.
  rewrite <- array_includes_spec. destruct (array_includes l x); split;
    congruence.
Qed.

End JsFacts.

(** ** Lists *)

Lemma filter_Retained (f : string -> bool) (P : string -> Prop)
  (l : list string) :
  (forall x, f x = true <-> P x) ->
  Reference.Retained P l (filter f l).
Proof.
  intros Hf. induction l as [|x l IH]; simpl.
  - constructor.
  - destruct (f x) eqn:Hx.
    + apply Reference.Retained_keep; [now apply Hf | exact IH].
    + apply Reference.Retained_drop; [| exact IH].
      intros HP. apply Hf in HP. congruence.
Qed.

(** [Retained] names one list only. *)
Lemma Retained_functional (P : string -> Prop) (l k1 k2 : list string) :
  Reference.Retained P l k1 -> Reference.Retained P l k2 -> k1 = k2.
Proof.
  intros H1. revert k2.
  induction H1 as [|x all kept Hx _ IH|x all kept Hx _ IH]; intros k2 H2;
    inversion H2; subst; try contradiction; auto.
  f_equal. now apply IH.
Qed.

Lemma Retained_In (P : string -> Prop) (l k : list string) :
  Reference.Retained P l k -> forall x, In x k <-> In x l /\ P x.
Proof.
  induction 1 as [|y all kept Hy _ IH|y all kept Hy _ IH]; intros x; simpl.
  - tauto.
  - rewrite IH. split.
    + intros [-> | [Hin HP]]; auto.
    + intros [[-> | Hin] HP]; auto.
  - rewrite IH. split.
    + intros [Hin HP]; auto.
    + intros [[-> | Hin] HP]; [contradiction | auto].
Qed.

Lemma filter_neq_remove (v : string) (l : list string) :
  filter (fun value => negb (String.eqb value v)) l = remove string_dec v l.
Proof.
  induction l as [|x l IH]; simpl; [reflexivity|].
  destruct (string_dec v x) as [->|Hne].
  - now rewrite String.eqb_refl.
  - destruct (String.eqb_spec x v) as [->|_]; [congruence|].
    simpl. now rewrite IH.
Qed.

(** ** The JSX tree *)

(** Every propagation path reaches the root: the fuel of [path] suffices. *)
Lemma path_reaches_root (e : Element) : In RootDiv (path e).
Proof. destruct e; simpl; tauto. Qed.

Lemma contains_root_inside (e : Element) :
  contains RootDiv (Inside e) = true.
Proof.
  unfold contains.
  destruct (in_dec Element_eq_dec RootDiv (path e)) as [_|Hn];
    [reflexivity | destruct (Hn (path_reaches_root e))].
Qed.

Lemma contains_root_false (target : Node) :
  contains RootDiv target = false <-> target = Outside.
Proof.
  destruct target as [e|].
  - rewrite contains_root_inside. split; discriminate.
  - split; reflexivity.
Qed.

Lemma focusEffect_same (before after : State) :
  isOpen before = isOpen after -> focusEffect before after = [].
Proof.
  intros Heq. unfold focusEffect. rewrite Heq.
  now destruct (isOpen after).
Qed.

(** ** Filtering, selecting and removing *)

Section ComponentFacts.

Variable toLowerCase : string -> string.

Lemma filteredOptions_keep (p : Props) (st : State) (c : string) :
  Js.includes (toLowerCase c) (toLowerCase (searchTerm st))
  && negb (Js.array_includes (selectedValues p) c) = true
  <-> Reference.Offered toLowerCase (selectedValues p) (searchTerm st) c.
Proof.
  unfold Reference.Offered.
  rewrite andb_true_iff, negb_true_iff, includes_spec,
    array_includes_false.
  tauto.
Qed.

Lemma visibleCandidates_open (p : Props) (st : State) :
  isOpen st = true ->
  visibleCandidates (render toLowerCase p st) = filteredOptions toLowerCase p st.
Proof.
  intros Hopen. unfold visibleCandidates, render. cbn [dropdown].
  rewrite Hopen.
  destruct (filteredOptions toLowerCase p st); reflexivity.
Qed.

Lemma visibleCandidates_closed (p : Props) (st : State) :
  isOpen st = false ->
  visibleCandidates (render toLowerCase p st) = [].
Proof.
  intros Hclosed. unfold visibleCandidates, render. cbn [dropdown].
  now rewrite Hclosed.
Qed.

Lemma rendered_option_open (p : Props) (st : State) (c : string) :
  rendered toLowerCase p st (OptionDiv c) = true -> isOpen st = true.
Proof.
  destruct (isOpen st) eqn:Hopen; [reflexivity|].
  cbn [rendered]. now rewrite (visibleCandidates_closed p st Hopen).
Qed.

(** C1: while the picker is open, the rows it shows are exactly the
    entries of [options], in their original order, that are not in
    [selectedValues] and whose lower-cased text contains the lower-cased
    search term. *)
Theorem C1_visible_candidates (p : Props) (st : State) :
  isOpen st = true ->
  Reference.Retained
    (Reference.Offered toLowerCase (selectedValues p) (searchTerm st))
    (options p)
    (visibleCandidates (render toLowerCase p st)).
Proof.
  intros Hopen. rewrite (visibleCandidates_open p st Hopen).
  unfold filteredOptions. apply filter_Retained.
  intros c. apply filteredOptions_keep.
Qed.

(** C2: clicking a row of the open picker calls [onChange] once, with
    [selectedValues] followed by the chosen candidate, empties the search
    term and leaves the dropdown open. *)
Theorem C2_select_appends (p : Props) (st : State) (c : string) :
  rendered toLowerCase p st (OptionDiv c) = true ->
  step p st (Click (OptionDiv c))
  = ({| isOpen := true; searchTerm := "" |},
     [OnChange (selectedValues p ++ [c]); FocusInput]).
Proof.
  intros Hrow. apply rendered_option_open in Hrow.
  destruct st as [o t]. simpl in Hrow. subst o. reflexivity.
Qed.

Lemma step_remove (p : Props) (st : State) (v : string) :
  step p st (Click (RemoveButton v))
  = (st, [OnChange (remove string_dec v (selectedValues p))]).
Proof.
  unfold step, handle, path. cbn [pathFrom parent bubble onClick].
  unfold handleRemove. rewrite filter_neq_remove.
  destruct st as [o t]. cbn. now rewrite focusEffect_same.
Qed.

(** C3: clicking the remove button of the chip of [v] calls [onChange]
    once, with [selectedValues] from which every entry equal to [v] is
    deleted and every other entry kept in place; the state, and with it
    the open/closed flag, is unchanged. *)
Theorem C3_remove_deletes_all (p : Props) (st : State) (v : string) :
  let r := remove string_dec v (selectedValues p) in
  step p st (Click (RemoveButton v)) = (st, [OnChange r])
  /\ Reference.Retained (fun x => x <> v) (selectedValues p) r
  /\ ~ In v r.
Proof.
  cbn zeta. split; [|split].
  - apply step_remove.
  - rewrite <- filter_neq_remove. apply filter_Retained.
    intros x. rewrite negb_true_iff. split.
    + intros Hx ->. now rewrite String.eqb_refl in Hx.
    + intros Hx. now apply String.eqb_neq.
  - apply remove_In.
Qed.

(** C9: removing a value that does not occur in [selectedValues] calls
    [onChange] with [selectedValues] itself. *)
Theorem C9_remove_absent (p : Props) (st : State) (v : string) :
  ~ In v (selectedValues p) ->
  handleRemove p v = [OnChange (selectedValues p)]
  /\ step p st (Click (RemoveButton v)) = (st, [OnChange (selectedValues p)]).
Proof.
  intros Habsent. split.
  - unfold handleRemove. rewrite filter_neq_remove.
    now rewrite (notin_remove string_dec _ _ Habsent).
  - rewrite step_remove.
    now rewrite (notin_remove string_dec _ _ Habsent).
Qed.

Lemma emptyMessage_open (p : Props) (st : State) :
  isOpen st = true ->
  filteredOptions toLowerCase p st = [] ->
  emptyMessage (render toLowerCase p st)
  = Some (if Js.truthy (searchTerm st)
          then "No options found" else "No options available").
Proof.
  intros Hopen Hnone. unfold emptyMessage, render. cbn [dropdown].
  now rewrite Hopen, Hnone.
Qed.

(** C5 (as the code has it): when the dropdown is open and no candidate
    is left to show, the message is "No options found" if the search term
    is non-empty and "No options available" if it is empty.  With
    [options = []] the same rule applies: "No options available" right
    after opening, "No options found" once a search term is typed. *)
Theorem C5_empty_message (p : Props) (st : State) :
  isOpen st = true ->
  (filteredOptions toLowerCase p st = [] ->
   emptyMessage (render toLowerCase p st)
   = Some (if Js.truthy (searchTerm st)
           then "No options found" else "No options available"))
  /\ (options p = [] ->
      (searchTerm st = "" ->
       emptyMessage (render toLowerCase p st) = Some "No options available")
      /\ (searchTerm st <> "" ->
          emptyMessage (render toLowerCase p st) = Some "No options found")).
Proof.
  intros Hopen. split.
  - now apply emptyMessage_open.
  - intros Hnil.
    assert (Hnone : filteredOptions toLowerCase p st = [])
      by (unfold filteredOptions; now rewrite Hnil).
    rewrite (emptyMessage_open p st Hopen Hnone).
    split; intros Hterm.
    + now rewrite Hterm.
    + destruct (searchTerm st); [congruence | reflexivity].
Qed.

Lemma visible_open_In (p : Props) (st : State) (c : string) :
  isOpen st = true ->
  (In c (visibleCandidates (render toLowerCase p st))
   <-> In c (options p)
       /\ ~ In c (selectedValues p)
       /\ Js.Substring (toLowerCase (searchTerm st)) (toLowerCase c)).
Proof.
  intros Hopen. rewrite (visibleCandidates_open p st Hopen).
  unfold filteredOptions. rewrite filter_In, filteredOptions_keep.
  unfold Reference.Offered. tauto.
Qed.

(** C10 (as the code has it): let [c] be a candidate and [s] a selected
    value that differs from [c] but has the same lower case.  Then [s]
    does not exclude [c]: [c] is a row of the open picker exactly when it
    would be one with [s] taken out of the selection.  [c] is a row
    exactly when [c] itself is not selected and the lower-cased text of
    [s] (which is that of [c]) contains the lower-cased search term.  When
    [c] is a row, selecting it hands [onChange] the selection followed by
    [c], which holds both [s] and [c]. *)
Theorem C10_case_sensitive_exclusion (p : Props) (st : State)
  (c s : string) :
  isOpen st = true ->
  In c (options p) ->
  In s (selectedValues p) ->
  c <> s ->
  toLowerCase c = toLowerCase s ->
  (In c (visibleCandidates (render toLowerCase p st))
   <-> In c (visibleCandidates
               (render toLowerCase
                  {| options := options p;
                     selectedValues :=
                       remove string_dec s (selectedValues p);
                     placeholder := placeholder p;
                     error := error p |} st)))
  /\ (In c (visibleCandidates (render toLowerCase p st))
      <-> ~ In c (selectedValues p)
          /\ Js.Substring (toLowerCase (searchTerm st)) (toLowerCase s))
  /\ (In c (visibleCandidates (render toLowerCase p st)) ->
      step p st (Click (OptionDiv c))
      = ({| isOpen := true; searchTerm := "" |},
         [OnChange (selectedValues p ++ [c]); FocusInput])
      /\ In s (selectedValues p ++ [c])
      /\ In c (selectedValues p ++ [c])).
Proof.
  intros Hopen Hc Hs Hne Hcase.
  rewrite !(visible_open_In _ st c Hopen). cbn [options selectedValues].
  rewrite Hcase. split; [|split].
  - split; intros [Ho [Hfree Hm]]; (split; [exact Ho|]);
      (split; [|exact Hm]).
    + intros Hin. apply in_remove in Hin. now apply Hfree.
    + intros Hin. apply Hfree. now apply in_in_remove.
  - tauto.
  - intros _. split; [|split].
    + destruct st as [o t]. simpl in Hopen. subst o. reflexivity.
    + apply in_or_app. now left.
    + apply in_or_app. right. now left.
Qed.

End ComponentFacts.

(** ** Closing from outside *)

(** C7: while the dropdown is open, a mousedown whose target is not inside
    the root element closes it; [onChange] is not called and the selection
    the host holds stays as it is. *)
Theorem C7_outside_mousedown_closes (p : Props) (st : State) (target : Node) :
  isOpen st = true ->
  contains RootDiv target = false ->
  step p st (MouseDown target)
  = ({| isOpen := false; searchTerm := searchTerm st |}, [])
  /\ onChangeCalls (snd (step p st (MouseDown target))) = []
  /\ selectedValues (feedBack p (snd (step p st (MouseDown target))))
     = selectedValues p.
Proof.
  intros Hopen Hout.
  assert (Hstep : step p st (MouseDown target)
                  = ({| isOpen := false; searchTerm := searchTerm st |}, [])).
  { unfold step, handle, handleClickOutside, dropdownRef_current.
    rewrite Hout. destruct st as [o t]. simpl in Hopen. subst o.
    reflexivity. }
  rewrite Hstep. repeat split; reflexivity.
Qed.

(** ** The document listener *)

Section ListenerFacts.
Import Lifecycle.

Lemma registrations_app (d1 d2 : Document) (ty : string) (l : Listener) :
  registrations (d1 ++ d2) ty l
  = registrations d1 ty l + registrations d2 ty l.
Proof. unfold registrations. now rewrite filter_app, length_app. Qed.

Lemma registrations_zero (doc : Document) (ty : string) (l : Listener) :
  registrations doc ty l = 0 <-> existsb (sameListener ty l) doc = false.
Proof.
  unfold registrations. induction doc as [|e doc IH]; simpl.
  - tauto.
  - destruct (sameListener ty l e); simpl.
    + split; discriminate.
    + exact IH.
Qed.

Lemma add_absent (doc : Document) (ty : string) (l : Listener) :
  registrations doc ty l = 0 ->
  registrations (addEventListener doc ty l) ty l = 1.
Proof.
  intros Hzero. unfold addEventListener.
  rewrite (proj1 (registrations_zero doc ty l) Hzero).
  rewrite registrations_app, Hzero. unfold registrations. simpl.
  unfold sameListener. simpl. rewrite String.eqb_refl.
  destruct l; simpl; now rewrite Nat.eqb_refl.
Qed.

Lemma add_other (doc : Document) (ty ty' : string) (l l' : Listener) :
  sameListener ty' l' (ty, l) = false ->
  registrations (addEventListener doc ty l) ty' l'
  = registrations doc ty' l'.
Proof.
  intros Hother. unfold addEventListener.
  destruct (existsb (sameListener ty l) doc); [reflexivity|].
  rewrite registrations_app. unfold registrations at 2. simpl.
  rewrite Hother. simpl. lia.
Qed.

Lemma remove_same (doc : Document) (ty : string) (l : Listener) :
  registrations (removeEventListener doc ty l) ty l = 0.
Proof.
  unfold registrations, removeEventListener.
  induction doc as [|e doc IH]; simpl; [reflexivity|].
  destruct (sameListener ty l e) eqn:He; simpl; [exact IH|].
  now rewrite He.
Qed.

Lemma sameListener_trans (ty ty' : string) (l l' : Listener)
  (e : string * Listener) :
  sameListener ty l e = true -> sameListener ty' l' e = true ->
  sameListener ty' l' (ty, l) = true.
Proof.
  unfold sameListener. simpl. rewrite !andb_true_iff.
  intros [Ht Hl] [Ht' Hl']. apply String.eqb_eq in Ht, Ht'. subst.
  rewrite String.eqb_refl. split; [reflexivity|].
  destruct (snd e), l, l'; simpl in *; try discriminate;
    apply Nat.eqb_eq in Hl, Hl'; subst; apply Nat.eqb_refl.
Qed.

Lemma remove_other (doc : Document) (ty ty' : string) (l l' : Listener) :
  sameListener ty' l' (ty, l) = false ->
  registrations (removeEventListener doc ty l) ty' l'
  = registrations doc ty' l'.
Proof.
  intros Hother. unfold registrations, removeEventListener.
  induction doc as [|e doc IH]; simpl; [reflexivity|].
  destruct (sameListener ty l e) eqn:He; simpl.
  - destruct (sameListener ty' l' e) eqn:He'; [|exact IH].
    rewrite (sameListener_trans _ _ _ _ _ He He') in Hother. discriminate.
  - destruct (sameListener ty' l' e); simpl; now rewrite IH.
Qed.

Lemma sameListener_instances (i j : nat) :
  sameListener "mousedown" (HandleClickOutside i)
    ("mousedown", HandleClickOutside j) = Nat.eqb j i.
Proof. reflexivity. Qed.

Lemma Balanced_initial (others : list (string * nat)) :
  Balanced (initialWorld others).
Proof.
  intros i. simpl. unfold registrations.
  induction others as [|e others IH]; simpl; [reflexivity|].
  unfold sameListener at 1. simpl. now rewrite andb_false_r.
Qed.

Lemma setup_after_cleanup (doc : Document) (j i : nat) :
  (forall k, k <> j ->
     registrations doc "mousedown" (HandleClickOutside k) = 0) ->
  registrations (effectSetup j (effectCleanup j doc)) "mousedown"
    (HandleClickOutside i)
  = if Nat.eqb i j then 1 else 0.
Proof.
  intros Hothers. unfold effectSetup, effectCleanup.
  destruct (Nat.eqb_spec i j) as [->|Hne].
  - apply add_absent, remove_same.
  - rewrite add_other, remove_other.
    + now apply Hothers.
    + rewrite sameListener_instances. now apply Nat.eqb_neq, not_eq_sym.
    + rewrite sameListener_instances. now apply Nat.eqb_neq, not_eq_sym.
Qed.

Lemma lifeStep_Balanced (w : World) (ph : Phase) :
  Balanced w -> Balanced (lifeStep w ph).
Proof.
  intros Hw. unfold lifeStep.
  destruct ph as [| | |cause]; destruct (mounted w) as [j|] eqn:Hm;
    try exact Hw; intros i; cbn [document mounted].
  - (* Mount *)
    unfold effectSetup. destruct (Nat.eqb_spec i (fresh w)) as [->|Hne].
    + apply add_absent. specialize (Hw (fresh w)). now rewrite Hm in Hw.
    + rewrite add_other.
      * specialize (Hw i). now rewrite Hm in Hw.
      * rewrite sameListener_instances. now apply Nat.eqb_neq, not_eq_sym.
  - (* StrictReplay *)
    apply setup_after_cleanup. intros k Hk. specialize (Hw k).
    rewrite Hm in Hw. now rewrite (proj2 (Nat.eqb_neq k j) Hk) in Hw.
  - (* Unmount *)
    unfold effectCleanup. destruct (Nat.eqb_spec i j) as [->|Hne].
    + apply remove_same.
    + rewrite remove_other.
      * specialize (Hw i). rewrite Hm in Hw.
        now rewrite (proj2 (Nat.eqb_neq i j) Hne) in Hw.
      * rewrite sameListener_instances. now apply Nat.eqb_neq, not_eq_sym.
Qed.

Lemma lifeRun_Balanced (phs : list Phase) (w : World) :
  Balanced w -> Balanced (lifeRun w phs).
Proof.
  revert w. induction phs as [|ph phs IH]; intros w Hw; simpl.
  - exact Hw.
  - apply IH, lifeStep_Balanced, Hw.
Qed.

Lemma registrations_follow_mounted
  (others : list (string * nat)) (phs : list Phase) (i : nat) :
  registrations (document (lifeRun (initialWorld others) phs)) "mousedown"
    (HandleClickOutside i)
  = match mounted (lifeRun (initialWorld others) phs) with
    | Some j => if Nat.eqb i j then 1 else 0
    | None => 0
    end.
Proof. apply (lifeRun_Balanced phs), Balanced_initial. Qed.

(** The instance recorded in the world is in step with the phases. *)
Lemma mounted_follows_phases (phs : list Phase) (w : World) :
  match mounted (lifeRun w phs) with Some _ => true | None => false end
  = fold_left Mounting.attachStep phs
      match mounted w with Some _ => true | None => false end.
Proof.
  revert w. induction phs as [|ph phs IH]; intros w; [reflexivity|].
  cbn [lifeRun fold_left]. fold (lifeRun (lifeStep w ph) phs).
  rewrite IH. f_equal. unfold lifeStep.
  destruct ph; destruct (mounted w) eqn:Hm; cbn [mounted Mounting.attachStep];
    rewrite ?Hm; reflexivity.
Qed.

(** What is registered after a sequence of phases, told from the phases
    alone. *)
Lemma handlers_after (others : list (string * nat)) (phs : list Phase) :
  if Mounting.attachedAfter phs
  then exists i, forall j,
      registrations (document (lifeRun (initialWorld others) phs))
        "mousedown" (HandleClickOutside j)
      = if Nat.eqb j i then 1 else 0
  else forall j,
      registrations (document (lifeRun (initialWorld others) phs))
        "mousedown" (HandleClickOutside j) = 0.
Proof.
  unfold Mounting.attachedAfter.
  pose proof (mounted_follows_phases phs (initialWorld others)) as Hm.
  cbn [initialWorld mounted] in Hm. rewrite <- Hm.
  destruct (mounted (lifeRun (initialWorld others) phs)) as [i|] eqn:Hw.
  - exists i. intros j. rewrite registrations_follow_mounted.
    now rewrite Hw.
  - intros j. rewrite registrations_follow_mounted. now rewrite Hw.
Qed.

(** C8: the [handleClickOutside] listener is on the document exactly while
    the component is mounted.  After any sequence of phases, one such
    listener is registered, once, if the last mount was not followed by an
    unmount, and none otherwise.  In particular a mount always ends with
    exactly one registered, and an unmount, whatever its cause, always
    ends with none, so no handler of a detached instance stays behind. *)
Theorem C8_listener_registered_while_mounted
  (others : list (string * nat)) (phs : list Phase) :
  (if Mounting.attachedAfter phs
   then exists i, forall j,
       registrations (document (lifeRun (initialWorld others) phs))
         "mousedown" (HandleClickOutside j)
       = if Nat.eqb j i then 1 else 0
   else forall j,
       registrations (document (lifeRun (initialWorld others) phs))
         "mousedown" (HandleClickOutside j) = 0)
  /\ (exists i, forall j,
         registrations
           (document (lifeRun (initialWorld others) (phs ++ [Mount])))
           "mousedown" (HandleClickOutside j)
         = if Nat.eqb j i then 1 else 0)
  /\ (forall cause j,
         registrations
           (document (lifeRun (initialWorld others) (phs ++ [Unmount cause])))
           "mousedown" (HandleClickOutside j) = 0).
Proof.
  split; [apply handlers_after|]. split.
  - pose proof (handlers_after others (phs ++ [Mount])) as H.
    unfold Mounting.attachedAfter in H. rewrite fold_left_app in H.
    exact H.
  - intros cause.
    pose proof (handlers_after others (phs ++ [Unmount cause])) as H.
    unfold Mounting.attachedAfter in H. rewrite fold_left_app in H.
    exact H.
Qed.

End ListenerFacts.

(** ** Runs on concrete hosts *)

Section Runs.
Import Scenarios.

(** On the colour list the term "re" matches "Red" and also "Green":
    "green" contains "re". *)
Example colours_re :
  visibleCandidates
    (render Js.toLowerCaseAscii colours {| isOpen := true; searchTerm := "re" |})
  = ["Red"; "Green"].
Proof. reflexivity. Qed.

Example twoSelected_remove_red :
  step twoSelected initialState (Click (RemoveButton "Red"))
  = (initialState, [OnChange ["Green"]]).
Proof. reflexivity. Qed.

Example colours_select_red :
  run Js.toLowerCaseAscii colours initialState
    [Click ContainerDiv; InputChange "re"; Click (OptionDiv "Red")]
  = Some (feedBack colours [OnChange ["Red"]],
          {| isOpen := true; searchTerm := "" |},
          [FocusInput; OnChange ["Red"]; FocusInput]).
Proof. reflexivity. Qed.

(** C4: evaluation at the failing input.  After typing "bl" and closing
    with Escape the search term is still "bl"; the click on the container
    then opens the dropdown and keeps "bl", so only "Blue" is listed.  The
    toggle button, from the same state, opens with an empty term. *)
Theorem C4_container_click_keeps_term :
  run Js.toLowerCaseAscii colours initialState
    [MouseDown (Inside ContainerDiv); Click ContainerDiv;
     InputChange "bl"; KeyDown "Escape"]
  = Some (colours, {| isOpen := false; searchTerm := "bl" |}, [FocusInput])
  /\ enabled Js.toLowerCaseAscii colours
       {| isOpen := false; searchTerm := "bl" |} (Click ContainerDiv) = true
  /\ step colours {| isOpen := false; searchTerm := "bl" |}
       (Click ContainerDiv)
     = ({| isOpen := true; searchTerm := "bl" |}, [FocusInput])
  /\ visibleCandidates
       (render Js.toLowerCaseAscii colours
          {| isOpen := true; searchTerm := "bl" |})
     = ["Blue"]
  /\ step colours {| isOpen := false; searchTerm := "bl" |}
       (Click ToggleButton)
     = ({| isOpen := true; searchTerm := "" |}, [FocusInput]).
Proof. repeat split; reflexivity. Qed.

(** C6: evaluation at the failing input.  Closing with Escape or with a
    mousedown outside leaves the typed term "bl" in place; closing with
    the toggle button empties it. *)
Theorem C6_close_keeps_term :
  run Js.toLowerCaseAscii colours initialState
    [Click ContainerDiv; InputChange "bl"; KeyDown "Escape"]
  = Some (colours, {| isOpen := false; searchTerm := "bl" |}, [FocusInput])
  /\ run Js.toLowerCaseAscii colours initialState
       [Click ContainerDiv; InputChange "bl"; MouseDown Outside]
     = Some (colours, {| isOpen := false; searchTerm := "bl" |},
             [FocusInput])
  /\ run Js.toLowerCaseAscii colours initialState
       [Click ContainerDiv; InputChange "bl"; Click ToggleButton]
     = Some (colours, {| isOpen := false; searchTerm := "" |}, [FocusInput]).
Proof. repeat split; reflexivity. Qed.

(** C5, as stated, fails: with no options at all and the term "a" typed,
    the message is "No options found". *)
Lemma C5_counterexample :
  options noOptions = []
  /\ selectedValues noOptions = []
  /\ emptyMessage
       (render Js.toLowerCaseAscii noOptions
          {| isOpen := true; searchTerm := "a" |})
     = Some "No options found"
  /\ emptyMessage
       (render Js.toLowerCaseAscii noOptions
          {| isOpen := true; searchTerm := "a" |})
     <> Some "No options available".
Proof. repeat split; try reflexivity. discriminate. Qed.

Lemma C1_witness :
  isOpen {| isOpen := true; searchTerm := "re" |} = true
  /\ Reference.Retained
       (Reference.Offered Js.toLowerCaseAscii (selectedValues colours) "re")
       (options colours)
       (visibleCandidates
          (render Js.toLowerCaseAscii colours
             {| isOpen := true; searchTerm := "re" |})).
Proof.
  split; [reflexivity|].
  apply (C1_visible_candidates Js.toLowerCaseAscii colours
           {| isOpen := true; searchTerm := "re" |}).
  reflexivity.
Defined.

Lemma C2_witness :
  rendered Js.toLowerCaseAscii colours
    {| isOpen := true; searchTerm := "re" |} (OptionDiv "Red") = true
  /\ step colours {| isOpen := true; searchTerm := "re" |}
       (Click (OptionDiv "Red"))
     = ({| isOpen := true; searchTerm := "" |},
        [OnChange (selectedValues colours ++ ["Red"]); FocusInput]).
Proof.
  split; [reflexivity|].
  apply (C2_select_appends Js.toLowerCaseAscii colours
           {| isOpen := true; searchTerm := "re" |} "Red").
  reflexivity.
Defined.

Lemma C5_witness :
  isOpen {| isOpen := true; searchTerm := "a" |} = true
  /\ emptyMessage
       (render Js.toLowerCaseAscii noOptions
          {| isOpen := true; searchTerm := "a" |})
     = Some "No options found".
Proof.
  split; [reflexivity|].
  apply (C5_empty_message Js.toLowerCaseAscii noOptions
           {| isOpen := true; searchTerm := "a" |}).
  - reflexivity.
  - reflexivity.
  - discriminate.
Defined.

Lemma C7_witness :
  isOpen {| isOpen := true; searchTerm := "re" |} = true
  /\ contains RootDiv Outside = false
  /\ step twoSelected {| isOpen := true; searchTerm := "re" |}
       (MouseDown Outside)
     = ({| isOpen := false; searchTerm := "re" |}, []).
Proof.
  split; [reflexivity|]. split; [reflexivity|].
  apply (C7_outside_mousedown_closes twoSelected
           {| isOpen := true; searchTerm := "re" |} Outside);
    reflexivity.
Defined.

Lemma C9_witness :
  ~ In "Blue" (selectedValues twoSelected)
  /\ handleRemove twoSelected "Blue" = [OnChange ["Red"; "Green"]].
Proof.
  assert (Habsent : ~ In "Blue" (selectedValues twoSelected)).
  { simpl. intros [H|[H|[]]]; discriminate H. }
  split; [exact Habsent|].
  apply (C9_remove_absent twoSelected initialState "Blue" Habsent).
Defined.

(** C10, as stated, fails: "Red" differs from the selected "red" only by
    case, yet it is not offered when the search term does not match it,
    nor when "Red" is selected as well. *)
Lemma C10_counterexample :
  (In "Red" (options mixedCase)
   /\ In "red" (selectedValues mixedCase)
   /\ "Red" <> "red"
   /\ Js.toLowerCaseAscii "Red" = Js.toLowerCaseAscii "red"
   /\ ~ In "Red"
         (visibleCandidates
            (render Js.toLowerCaseAscii mixedCase
               {| isOpen := true; searchTerm := "x" |})))
  /\ (In "Red" (options Hosts.bothCases)
      /\ In "red" (selectedValues Hosts.bothCases)
      /\ ~ In "Red"
            (visibleCandidates
               (render Js.toLowerCaseAscii Hosts.bothCases
                  {| isOpen := true; searchTerm := "" |}))).
Proof.
  repeat split; try (simpl; tauto); try discriminate; intros [].
Qed.

Lemma C10_witness :
  (In "Red"
     (visibleCandidates
        (render Js.toLowerCaseAscii mixedCase
           {| isOpen := true; searchTerm := "RE" |}))
   <-> ~ In "Red" (selectedValues mixedCase)
       /\ Js.Substring (Js.toLowerCaseAscii "RE") (Js.toLowerCaseAscii "red"))
  /\ (In "Red"
        (visibleCandidates
           (render Js.toLowerCaseAscii mixedCase
              {| isOpen := true; searchTerm := "RE" |})) ->
      step mixedCase {| isOpen := true; searchTerm := "RE" |}
        (Click (OptionDiv "Red"))
      = ({| isOpen := true; searchTerm := "" |},
         [OnChange ["red"; "Red"]; FocusInput])
      /\ In "red" ["red"; "Red"] /\ In "Red" ["red"; "Red"]).
Proof.
  apply (C10_case_sensitive_exclusion Js.toLowerCaseAscii mixedCase
           {| isOpen := true; searchTerm := "RE" |} "Red" "red").
  - reflexivity.
  - simpl. now left.
  - simpl. now left.
  - discriminate.
  - reflexivity.
Defined.

End Runs.


(** ** What each event does *)

(** Where a click lands decides which handlers run: the table below is the
    JSX tree, the bubbling order and the two [stopPropagation] calls put
    together. *)
Lemma click_dispatch (p : Props) (st : State) (e : Element) :
  handle p st (Click e)
  = match e with
    | RootDiv | OverlayDiv | MessageDiv | ErrorText => []
    | ContainerDiv | PlaceholderDiv | ChipDiv _ | ChipLabel _
    | SearchInput | ToggleWrapper => [SetIsOpen true]
    | RemoveButton v | RemoveIcon v => handleRemove p v
    | ToggleButton | ChevronIcon => toggleDropdown st
    | OptionDiv c => handleSelect p st c
    end.
Proof.
  destruct e; try reflexivity.
  unfold handle, path. cbn [pathFrom parent bubble onClick].
  now rewrite app_nil_r.
Qed.

Lemma mousedown_inside (e : Element) :
  handleClickOutside (Inside e) = [].
Proof.
  unfold handleClickOutside, dropdownRef_current.
  now rewrite contains_root_inside.
Qed.

Lemma onChangeCalls_app (a b : list Action) :
  onChangeCalls (a ++ b) = onChangeCalls a ++ onChangeCalls b.
Proof.
  induction a as [|x a IH]; simpl; [reflexivity|].
  destruct x; simpl; now rewrite IH.
Qed.

Lemma onChangeCalls_external (acts : list Action) :
  onChangeCalls (filter external acts) = onChangeCalls acts.
Proof.
  induction acts as [|x acts IH]; simpl; [reflexivity|].
  destruct x; simpl; now rewrite ?IH.
Qed.

Lemma onChangeCalls_focusEffect (before after : State) :
  onChangeCalls (focusEffect before after) = [].
Proof.
  unfold focusEffect, inputRef_current.
  destruct (Bool.eqb (isOpen before) (isOpen after)); [reflexivity|].
  destruct (isOpen after); reflexivity.
Qed.

(** The [onChange] calls of a step are those of its handlers. *)
Lemma onChangeCalls_step (p : Props) (st : State) (ev : Event) :
  onChangeCalls (snd (step p st ev)) = onChangeCalls (handle p st ev).
Proof.
  unfold step. cbn [snd].
  now rewrite onChangeCalls_app, onChangeCalls_external,
    onChangeCalls_focusEffect, app_nil_r.
Qed.

Lemma onChangeCalls_handleSelect (p : Props) (st : State) (c : string) :
  onChangeCalls (handleSelect p st c) = [selectedValues p ++ [c]].
Proof.
  unfold handleSelect, inputRef_current. destruct (isOpen st); reflexivity.
Qed.

Lemma onChangeCalls_handleKeyDown (key : string) :
  onChangeCalls (handleKeyDown key) = [].
Proof. unfold handleKeyDown. now destruct (String.eqb key "Escape"). Qed.

Lemma onChangeCalls_handleClickOutside (target : Node) :
  onChangeCalls (handleClickOutside target) = [].
Proof.
  unfold handleClickOutside, dropdownRef_current.
  now destruct (negb (contains RootDiv target)).
Qed.

(** The open flag after a step, event by event. *)
Lemma isOpen_after_handleSelect (p : Props) (st : State) (c : string) :
  fold_left reduce (handleSelect p st c) st
  = {| isOpen := isOpen st; searchTerm := "" |}.
Proof. destruct st as [[|] t]; reflexivity. Qed.

Lemma state_after_handleRemove (p : Props) (st : State) (v : string) :
  fold_left reduce (handleRemove p v) st = st.
Proof. reflexivity. Qed.

(** X1: [onChange] is called at most once per event, and only by a click
    on a candidate row (with the selection extended by that candidate) or
    on the remove button of a chip or the icon inside it (with that value
    filtered out).  Typing, key presses, mousedowns, the toggle button and
    every other click leave the host's selection alone. *)
Theorem onChange_only_on_select_or_remove (p : Props) (st : State)
  (ev : Event) :
  (exists c, ev = Click (OptionDiv c)
             /\ onChangeCalls (snd (step p st ev)) = [selectedValues p ++ [c]])
  \/ (exists v, (ev = Click (RemoveButton v) \/ ev = Click (RemoveIcon v))
                /\ onChangeCalls (snd (step p st ev))
                   = [remove string_dec v (selectedValues p)])
  \/ ((forall x, ev <> Click (OptionDiv x) /\ ev <> Click (RemoveButton x)
                 /\ ev <> Click (RemoveIcon x))
      /\ onChangeCalls (snd (step p st ev)) = []).
Proof.
  rewrite onChangeCalls_step.
  destruct ev as [e|target|value|key].
  - rewrite click_dispatch.
    destruct e;
      try (right; right; split;
           [intros x; repeat split; discriminate | reflexivity]).
    + right; left. exists value. split; [now left|].
      unfold handleRemove. now rewrite filter_neq_remove.
    + right; left. exists value. split; [now right|].
      unfold handleRemove. now rewrite filter_neq_remove.
    + left. exists option. split; [reflexivity|].
      apply onChangeCalls_handleSelect.
  - right; right. split; [intros x; repeat split; discriminate|].
    apply onChangeCalls_handleClickOutside.
  - right; right. split; [intros x; repeat split; discriminate|].
    reflexivity.
  - right; right. split; [intros x; repeat split; discriminate|].
    apply onChangeCalls_handleKeyDown.
Qed.

(** X2: an open dropdown is closed by exactly four events: Escape in the
    search input, a mousedown outside the component, and a click on the
    toggle button or on its icon.  Selecting, removing a chip, typing, any
    other key and any other click keep it open. *)
Theorem closes_exactly_on (p : Props) (st : State) (ev : Event) :
  isOpen st = true ->
  (isOpen (fst (step p st ev)) = false
   <-> ev = KeyDown "Escape" \/ ev = MouseDown Outside
       \/ ev = Click ToggleButton \/ ev = Click ChevronIcon).
Proof.
  intros Hopen. unfold step. cbn [fst].
  destruct ev as [e|target|value|key].
  - rewrite click_dispatch.
    destruct e;
      try rewrite isOpen_after_handleSelect;
      try rewrite state_after_handleRemove;
      unfold toggleDropdown; cbn; rewrite ?Hopen; cbn;
      split; try discriminate; try tauto;
      intros [H|[H|[H|H]]]; discriminate H.
  - cbn [handle]. destruct target as [e|].
    + rewrite mousedown_inside. cbn. rewrite Hopen.
      split; [discriminate|]. intros [H|[H|[H|H]]]; discriminate H.
    + cbn. split; auto.
  - cbn. rewrite Hopen.
    split; [discriminate|]. intros [H|[H|[H|H]]]; discriminate H.
  - cbn [handle]. unfold handleKeyDown.
    destruct (String.eqb_spec key "Escape") as [->|Hne].
    + cbn. split; auto.
    + cbn. rewrite Hopen. split; [discriminate|].
      intros [H|[H|[H|H]]]; try discriminate H.
      injection H as H. contradiction.
Qed.

(** X3: a closed dropdown is opened by exactly the clicks that land inside
    the field container but not on the remove button of a chip; no
    mousedown and no click on the root or below the field opens it. *)
Theorem opens_exactly_on (p : Props) (st : State) (ev : Event) :
  isOpen st = false ->
  (isOpen (fst (step p st ev)) = true
   <-> exists e, ev = Click e
                 /\ In ContainerDiv (path e)
                 /\ forall v, ~ In (RemoveButton v) (path e)).
Proof.
  intros Hclosed. unfold step. cbn [fst].
  destruct ev as [e|target|value|key].
  - rewrite click_dispatch.
    destruct e;
      try rewrite isOpen_after_handleSelect;
      try rewrite state_after_handleRemove;
      unfold toggleDropdown; cbn [fold_left reduce isOpen searchTerm];
      rewrite ?Hclosed; cbn [negb];
      (split;
       [ first
           [ discriminate
           | intros _; eexists; split; [reflexivity|];
             unfold path; simpl; split;
             [ intuition | intros v Hin; intuition discriminate ] ]
       | first
           [ intros _; reflexivity
           | intros [e' [He' [Hc Hr]]]; injection He' as <-; exfalso;
             unfold path in *; simpl in *;
             first [ solve [eapply Hr; eauto]
                   | intuition discriminate ] ] ]).
  - cbn [handle]. split.
    + destruct target as [e|].
      * rewrite mousedown_inside. cbn. now rewrite Hclosed.
      * cbn. discriminate.
    + intros [e' [He' _]]. discriminate He'.
  - cbn. rewrite Hclosed. split; [discriminate|].
    intros [e' [He' _]]. discriminate He'.
  - cbn [handle]. split.
    + unfold handleKeyDown. destruct (String.eqb key "Escape"); cbn;
        rewrite ?Hclosed; discriminate.
    + intros [e' [He' _]]. discriminate He'.
Qed.

(** X4: the search input is asked for focus only by steps that end with the
    dropdown open, that is, only when the input exists; and every step that
    opens a closed dropdown asks for it, and does nothing else outside. *)
Theorem focus_follows_open (p : Props) (st : State) (ev : Event) :
  (In FocusInput (snd (step p st ev)) -> isOpen (fst (step p st ev)) = true)
  /\ (isOpen st = false -> isOpen (fst (step p st ev)) = true ->
      snd (step p st ev) = [FocusInput]).
Proof.
  unfold step. cbn [fst snd].
  destruct ev as [e|target|value|key].
  - rewrite click_dispatch.
    destruct st as [[|] t]; destruct e; cbn;
      (split; [intros Hin | intros Hc Ho]);
      try reflexivity; try discriminate;
      try (cbn in Hin; intuition discriminate).
  - cbn [handle]. destruct target as [e|].
    + rewrite mousedown_inside. cbn [fold_left filter app].
      rewrite focusEffect_same by reflexivity.
      split; [intros [] | intros Hc Ho; congruence].
    + destruct st as [[|] t]; cbn; split; try discriminate; intros [].
  - destruct st as [[|] t]; cbn; split; try discriminate; intros [].
  - cbn [handle]. unfold handleKeyDown.
    destruct st as [[|] t]; destruct (String.eqb key "Escape"); cbn;
      split; try discriminate; intros [].
Qed.

(** X5: a mousedown on any element of the component, whatever is rendered,
    changes nothing and calls nothing: only targets outside the root close
    the dropdown. *)
Theorem inside_mousedown_is_ignored (p : Props) (st : State) (e : Element) :
  step p st (MouseDown (Inside e)) = (st, []).
Proof.
  unfold step. cbn [handle]. rewrite mousedown_inside.
  cbn [fold_left filter app]. now rewrite focusEffect_same.
Qed.

(** ** Sessions against a host that stores the selection *)

Lemma string_app_assoc (a b c : string) :
  ((a ++ b) ++ c)%string = (a ++ b ++ c)%string.
Proof. induction a as [|x a IH]; simpl; [reflexivity | now rewrite IH]. Qed.

Lemma Substring_trans (a b c : string) :
  Js.Substring a b -> Js.Substring b c -> Js.Substring a c.
Proof.
  intros [x [y ->]] [u [v ->]].
  exists (u ++ x)%string, (y ++ v)%string.
  now rewrite !string_app_assoc.
Qed.

Lemma feedBack_none (p : Props) (out : list Action) :
  onChangeCalls out = [] -> feedBack p out = p.
Proof. intros Hout. unfold feedBack. now rewrite Hout. Qed.

Lemma feedBack_one (p : Props) (out : list Action) (l : list string) :
  onChangeCalls out = [l] ->
  feedBack p out
  = {| options := options p; selectedValues := l;
       placeholder := placeholder p; error := error p |}.
Proof. intros Hout. unfold feedBack. now rewrite Hout. Qed.

Lemma step_select_open (p : Props) (st : State) (c : string) :
  isOpen st = true ->
  step p st (Click (OptionDiv c))
  = ({| isOpen := true; searchTerm := "" |},
     [OnChange (selectedValues p ++ [c]); FocusInput]).
Proof.
  intros Hopen. destruct st as [o t]. simpl in Hopen. subst o. reflexivity.
Qed.

Section SessionFacts.

Variable toLowerCase : string -> string.

Lemma rendered_option_In (p : Props) (st : State) (c : string) :
  rendered toLowerCase p st (OptionDiv c) = true ->
  In c (filteredOptions toLowerCase p st).
Proof.
  intros Hrow. pose proof (rendered_option_open toLowerCase p st c Hrow) as Ho.
  cbn [rendered] in Hrow. apply array_includes_spec in Hrow.
  now rewrite (visibleCandidates_open toLowerCase p st Ho) in Hrow.
Qed.

Lemma filteredOptions_In (p : Props) (st : State) (c : string) :
  In c (filteredOptions toLowerCase p st)
  <-> In c (options p)
      /\ Reference.Offered toLowerCase (selectedValues p) (searchTerm st) c.
Proof.
  unfold filteredOptions. rewrite filter_In.
  now rewrite (filteredOptions_keep toLowerCase p st c).
Qed.

(** What one event the user can cause does to the props of a host that
    stores what [onChange] hands it. *)
Lemma enabled_step_feedBack (p : Props) (st : State) (ev : Event) :
  enabled toLowerCase p st ev = true ->
  options (feedBack p (snd (step p st ev))) = options p
  /\ (selectedValues (feedBack p (snd (step p st ev))) = selectedValues p
      \/ (exists c, In c (options p) /\ ~ In c (selectedValues p)
                    /\ selectedValues (feedBack p (snd (step p st ev)))
                       = selectedValues p ++ [c])
      \/ (exists v, selectedValues (feedBack p (snd (step p st ev)))
                    = remove string_dec v (selectedValues p))).
Proof.
  intros Hen.
  assert (Hnone : onChangeCalls (handle p st ev) = [] ->
                  options (feedBack p (snd (step p st ev))) = options p
                  /\ (selectedValues (feedBack p (snd (step p st ev)))
                      = selectedValues p
                      \/ (exists c, In c (options p) /\ ~ In c (selectedValues p)
                            /\ selectedValues (feedBack p (snd (step p st ev)))
                               = selectedValues p ++ [c])
                      \/ (exists v,
                            selectedValues (feedBack p (snd (step p st ev)))
                            = remove string_dec v (selectedValues p)))).
  { intros Hcalls. rewrite feedBack_none by now rewrite onChangeCalls_step.
    auto. }
  destruct ev as [e|target|value|key].
  - pose proof (click_dispatch p st e) as Hd.
    destruct e; try (apply Hnone; rewrite Hd; reflexivity).
    + rewrite (feedBack_one p _ (remove string_dec value (selectedValues p))).
      * split; [reflexivity|]. right; right. now exists value.
      * rewrite onChangeCalls_step, Hd. unfold handleRemove.
        now rewrite filter_neq_remove.
    + rewrite (feedBack_one p _ (remove string_dec value (selectedValues p))).
      * split; [reflexivity|]. right; right. now exists value.
      * rewrite onChangeCalls_step, Hd. unfold handleRemove.
        now rewrite filter_neq_remove.
    + rewrite (feedBack_one p _ (selectedValues p ++ [option])).
      * split; [reflexivity|]. right; left. exists option.
        cbn [enabled] in Hen. apply rendered_option_In in Hen.
        apply filteredOptions_In in Hen. destruct Hen as [Hin [Hfree _]].
        auto.
      * rewrite onChangeCalls_step, Hd. apply onChangeCalls_handleSelect.
  - apply Hnone. apply onChangeCalls_handleClickOutside.
  - apply Hnone. reflexivity.
  - apply Hnone. apply onChangeCalls_handleKeyDown.
Qed.

Lemma run_cons (p : Props) (st : State) (ev : Event) (rest : list Event)
  (p' : Props) (st' : State) (out : list Action) :
  run toLowerCase p st (ev :: rest) = Some (p', st', out) ->
  enabled toLowerCase p st ev = true
  /\ exists out',
      run toLowerCase (feedBack p (snd (step p st ev)))
        (fst (step p st ev)) rest = Some (p', st', out')
      /\ out = snd (step p st ev) ++ out'.
Proof.
  cbn [run]. destruct (enabled toLowerCase p st ev); [|discriminate].
  destruct (step p st ev) as [st1 out1]. cbn [fst snd].
  destruct (run toLowerCase (feedBack p out1) st1 rest)
    as [[[p2 st2] out2]|]; [|discriminate].
  intros H. injection H as <- <- <-. split; [reflexivity|].
  now exists out2.
Qed.

(** A property of the host's props that every possible event preserves
    holds at the end of every session. *)
Lemma run_invariant (I : Props -> Prop) :
  (forall p st ev, enabled toLowerCase p st ev = true -> I p ->
                   I (feedBack p (snd (step p st ev)))) ->
  forall evs p st p' st' out,
    run toLowerCase p st evs = Some (p', st', out) -> I p -> I p'.
Proof.
  intros Hstep. induction evs as [|ev rest IH]; intros p st p' st' out Hrun Hp.
  - cbn in Hrun. injection Hrun as <- _ _. exact Hp.
  - apply run_cons in Hrun. destruct Hrun as [Hen [out' [Hrest _]]].
    eapply IH; [exact Hrest|]. now apply Hstep.
Qed.

(** X6: through the component a selection without repeated values stays
    without repeated values, whatever the user does: a candidate can be
    clicked only while it is not selected, and removal only deletes. *)
Theorem session_keeps_selection_duplicate_free
  (p : Props) (st : State) (evs : list Event)
  (p' : Props) (st' : State) (out : list Action) :
  run toLowerCase p st evs = Some (p', st', out) ->
  NoDup (selectedValues p) ->
  NoDup (selectedValues p').
Proof.
  apply (run_invariant (fun q => NoDup (selectedValues q))).
  clear. intros p st ev Hen Hnd.
  destruct (enabled_step_feedBack p st ev Hen)
    as [_ [-> | [[c [_ [Hfree ->]]] | [v ->]]]].
  - exact Hnd.
  - apply NoDup_app; [exact Hnd | repeat constructor; intros [] |].
    intros a Ha [<- | []]. contradiction.
  - rewrite <- filter_neq_remove. now apply NoDup_filter.
Qed.

(** X7: the candidate list is never changed by the component, and a
    selection drawn from the candidate list stays within it. *)
Theorem session_keeps_selection_within_options
  (p : Props) (st : State) (evs : list Event)
  (p' : Props) (st' : State) (out : list Action) :
  run toLowerCase p st evs = Some (p', st', out) ->
  incl (selectedValues p) (options p) ->
  options p' = options p /\ incl (selectedValues p') (options p').
Proof.
  intros Hrun Hincl.
  apply (run_invariant
           (fun q => options q = options p
                     /\ incl (selectedValues q) (options q))
           ) with (2 := Hrun); [|now split].
  clear. intros q st ev Hen [Hopts Hincl].
  destruct (enabled_step_feedBack q st ev Hen)
    as [Ho [Hs | [[c [Hc [_ Hs]]] | [v Hs]]]];
    rewrite Ho, Hs; (split; [exact Hopts|]).
  - exact Hincl.
  - apply incl_app; [exact Hincl|]. intros x [<- | []]. exact Hc.
  - intros x Hx. apply in_remove in Hx. now apply Hincl.
Qed.

(** X8: selecting a candidate from the picker and then removing its chip
    gives the host back the selection it had; the dropdown is still open
    and the search term empty. *)
Theorem select_then_remove_restores (p : Props) (st : State) (c : string) :
  rendered toLowerCase p st (OptionDiv c) = true ->
  exists p' out,
    run toLowerCase p st [Click (OptionDiv c); Click (RemoveButton c)]
    = Some (p', {| isOpen := true; searchTerm := "" |}, out)
    /\ onChangeCalls out = [selectedValues p ++ [c]; selectedValues p]
    /\ selectedValues p' = selectedValues p
    /\ options p' = options p.
Proof.
  intros Hrow.
  pose proof (rendered_option_open toLowerCase p st c Hrow) as Hopen.
  assert (Hen1 : enabled toLowerCase p st (Click (OptionDiv c)) = true)
    by exact Hrow.
  apply rendered_option_In, filteredOptions_In in Hrow.
  destruct Hrow as [Hc [Hfree _]].
  assert (Hback : remove string_dec c (selectedValues p ++ [c])
                  = selectedValues p).
  { rewrite remove_app, (notin_remove string_dec _ _ Hfree). simpl.
    destruct (string_dec c c) as [_|Hne]; [apply app_nil_r | congruence]. }
  cbn [run]. rewrite Hen1, (step_select_open p st c Hopen).
  rewrite (feedBack_one p _ (selectedValues p ++ [c])) by reflexivity.
  assert (Hen2 : forall q s,
             selectedValues q = selectedValues p ++ [c] ->
             enabled toLowerCase q s (Click (RemoveButton c)) = true).
  { intros q s Hq. cbn [enabled rendered render chips]. rewrite Hq.
    apply array_includes_spec, in_or_app. right. now left. }
  rewrite Hen2 by reflexivity. rewrite step_remove.
  cbn [selectedValues]. rewrite Hback.
  eexists; eexists. split; [reflexivity|].
  repeat split; reflexivity.
Qed.

(** X9: the candidate the user selects is a chip and no longer a row of
    the picker on the next render, and the picker is still open. *)
Theorem selected_candidate_leaves_picker (p : Props) (st : State)
  (c : string) :
  rendered toLowerCase p st (OptionDiv c) = true ->
  exists p' st' out,
    run toLowerCase p st [Click (OptionDiv c)] = Some (p', st', out)
    /\ isOpen st' = true
    /\ In c (chips (render toLowerCase p' st'))
    /\ ~ In c (visibleCandidates (render toLowerCase p' st')).
Proof.
  intros Hrow.
  pose proof (rendered_option_open toLowerCase p st c Hrow) as Hopen.
  assert (Hen : enabled toLowerCase p st (Click (OptionDiv c)) = true)
    by exact Hrow.
  cbn [run]. rewrite Hen, (step_select_open p st c Hopen).
  rewrite (feedBack_one p _ (selectedValues p ++ [c])) by reflexivity.
  eexists; eexists; eexists. split; [reflexivity|].
  split; [reflexivity|]. split.
  - cbn [render chips selectedValues]. apply in_or_app. right. now left.
  - rewrite visibleCandidates_open by reflexivity.
    intros Hin. apply filteredOptions_In in Hin.
    destruct Hin as [_ [Hfree _]]. apply Hfree.
    cbn [selectedValues]. apply in_or_app. right. now left.
Qed.

(** X10: with an empty search term the open picker lists every option that
    is not selected, in the order of [options] (for a case mapping that
    maps the empty string to itself). *)
Theorem empty_term_lists_all_unselected (p : Props) (st : State) :
  toLowerCase "" = "" ->
  isOpen st = true ->
  searchTerm st = "" ->
  visibleCandidates (render toLowerCase p st)
  = filter (fun o => negb (Js.array_includes (selectedValues p) o))
           (options p).
Proof.
  intros Hlow Hopen Hterm.
  rewrite (visibleCandidates_open toLowerCase p st Hopen).
  unfold filteredOptions. apply filter_ext. intros o.
  now rewrite Hterm, Hlow, includes_empty.
Qed.

(** X11: a term that contains another narrows its list.  If the
    lower-cased term [t] occurs inside the lower-cased term [t'], every
    candidate listed for [t'] is listed for [t]. *)
Theorem longer_term_narrows (p : Props) (o o' : bool) (t t' : string)
  (c : string) :
  Js.Substring (toLowerCase t) (toLowerCase t') ->
  In c (filteredOptions toLowerCase p {| isOpen := o'; searchTerm := t' |}) ->
  In c (filteredOptions toLowerCase p {| isOpen := o; searchTerm := t |}).
Proof.
  intros Hsub Hin.
  apply filteredOptions_In in Hin. apply filteredOptions_In.
  cbn [searchTerm] in *. destruct Hin as [Hc [Hfree Hmatch]].
  split; [exact Hc|]. split; [exact Hfree|].
  exact (Substring_trans _ _ _ Hsub Hmatch).
Qed.

(** X12: [placeholder] and [error] are presentational.  Two hosts with the
    same [selectedValues] get the same state change and the same calls from
    every event; if they also have the same [options] they show the same
    chips, search input and picker. *)
Theorem presentation_props_do_not_matter (p q : Props) (st : State) :
  selectedValues p = selectedValues q ->
  (forall ev, step p st ev = step q st ev)
  /\ (options p = options q ->
      chips (render toLowerCase p st) = chips (render toLowerCase q st)
      /\ searchInput (render toLowerCase p st)
         = searchInput (render toLowerCase q st)
      /\ dropdown (render toLowerCase p st)
         = dropdown (render toLowerCase q st)).
Proof.
  intros Hsel. split.
  - intros ev. unfold step.
    assert (Hh : handle p st ev = handle q st ev).
    { destruct ev as [e|target|value|key]; try reflexivity.
      rewrite !click_dispatch.
      destruct e; unfold handleRemove, handleSelect; now rewrite ?Hsel. }
    now rewrite Hh.
  - intros Hopts. unfold render, filteredOptions.
    cbn [chips searchInput dropdown]. now rewrite Hsel, Hopts.
Qed.

(** X13: what a render never shows.  The placeholder appears only with no
    chip, no search input and no picker; the search input and the picker
    appear together; and an open picker is never blank: it has either a
    message or at least one row. *)
Theorem render_is_coherent (p : Props) (st : State) :
  let v := render toLowerCase p st in
  (placeholderText v <> None ->
   chips v = [] /\ searchInput v = None /\ dropdown v = None)
  /\ (searchInput v = None <-> dropdown v = None)
  /\ (forall rows, dropdown v = Some (OptionRows rows) ->
                   rows <> [] /\ rows = filteredOptions toLowerCase p st)
  /\ (forall text, dropdown v = Some (EmptyMessage text) ->
                   filteredOptions toLowerCase p st = []).
Proof.
  cbn zeta. unfold render.
  cbn [placeholderText chips searchInput dropdown].
  destruct (isOpen st).
  - rewrite andb_false_r. split; [intros H; congruence|].
    split; [split; discriminate|]. split.
    + intros rows H.
      destruct (filteredOptions toLowerCase p st) as [|x l]; cbn in H.
      * discriminate H.
      * injection H as <-. split; [discriminate | reflexivity].
    + intros text H.
      destruct (filteredOptions toLowerCase p st) as [|x l]; cbn in H;
        [reflexivity | discriminate H].
  - split.
    + intros H. destruct (selectedValues p); [auto | cbn in H; congruence].
    + split; [tauto|]. split; intros ? H; discriminate H.
Qed.

End SessionFacts.

(** ** The document as a whole *)

Section DocumentFacts.
Import Lifecycle.

Lemma foreign_has_no_handler (others : list (string * nat)) (ty : string)
  (i : nat) :
  existsb (sameListener ty (HandleClickOutside i))
    (map (fun e => (fst e, Foreign (snd e))) others) = false.
Proof.
  induction others as [|e others IH]; simpl; [reflexivity|].
  unfold sameListener at 1. simpl. now rewrite andb_false_r.
Qed.

Lemma foreign_survives_removal (others : list (string * nat)) (ty : string)
  (i : nat) :
  removeEventListener (map (fun e => (fst e, Foreign (snd e))) others) ty
    (HandleClickOutside i)
  = map (fun e => (fst e, Foreign (snd e))) others.
Proof.
  unfold removeEventListener.
  induction others as [|e others IH]; simpl; [reflexivity|].
  unfold sameListener at 1. simpl. rewrite andb_false_r. simpl.
  now rewrite IH.
Qed.

Lemma cleanup_own (others : list (string * nat)) (i : nat) :
  effectCleanup i
    (map (fun e => (fst e, Foreign (snd e))) others
     ++ [("mousedown", HandleClickOutside i)])
  = map (fun e => (fst e, Foreign (snd e))) others.
Proof.
  unfold effectCleanup, removeEventListener. rewrite filter_app.
  fold (removeEventListener (map (fun e => (fst e, Foreign (snd e))) others)
          "mousedown" (HandleClickOutside i)).
  rewrite foreign_survives_removal. simpl.
  rewrite sameListener_instances, Nat.eqb_refl. simpl. apply app_nil_r.
Qed.

Lemma setup_own (others : list (string * nat)) (i : nat) :
  effectSetup i (map (fun e => (fst e, Foreign (snd e))) others)
  = map (fun e => (fst e, Foreign (snd e))) others
    ++ [("mousedown", HandleClickOutside i)].
Proof.
  unfold effectSetup, addEventListener.
  now rewrite foreign_has_no_handler.
Qed.

(** X14: the component leaves the rest of the document's listener list
    alone.  After any sequence of mounts, re-renders and unmounts the list
    is what other code registered, in its order, followed by the
    [mousedown] handler of the mounted instance if there is one. *)
Theorem document_is_others_plus_own
  (others : list (string * nat)) (phs : list Phase) :
  let w := lifeRun (initialWorld others) phs in
  document w
  = map (fun e => (fst e, Foreign (snd e))) others
    ++ match mounted w with
       | Some j => [("mousedown", HandleClickOutside j)]
       | None => []
       end.
Proof.
  cbn zeta.
  assert (Hinv : forall w,
             document w
             = map (fun e => (fst e, Foreign (snd e))) others
               ++ match mounted w with
                  | Some j => [("mousedown", HandleClickOutside j)]
                  | None => []
                  end ->
             document (lifeRun w phs)
             = map (fun e => (fst e, Foreign (snd e))) others
               ++ match mounted (lifeRun w phs) with
                  | Some j => [("mousedown", HandleClickOutside j)]
                  | None => []
                  end).
  { induction phs as [|ph phs IH]; intros w Hw; [exact Hw|].
    cbn [lifeRun fold_left]. apply IH. unfold lifeStep.
    destruct ph as [| | |cause]; destruct (mounted w) as [j|] eqn:Hm;
      cbn [document mounted]; rewrite ?Hm; try exact Hw; rewrite Hw.
    - rewrite app_nil_r. apply setup_own.
    - rewrite cleanup_own. apply setup_own.
    - rewrite cleanup_own. now rewrite app_nil_r. }
  apply Hinv. cbn. now rewrite app_nil_r.
Qed.

End DocumentFacts.

(** ** The button's class string *)

Section ButtonFacts.
Import Button Dom.

Lemma splitOnWhitespace_nonempty (s : string) : splitOnWhitespace s <> [].
Proof.
  destruct s as [|c s]; simpl; [discriminate|].
  destruct (isAsciiWhitespace c); [discriminate|].
  destruct (splitOnWhitespace s); discriminate.
Qed.

Lemma splitOnWhitespace_space (a b : string) :
  splitOnWhitespace (a ++ " " ++ b)
  = splitOnWhitespace a ++ splitOnWhitespace b.
Proof.
  change (" " ++ b)%string with (String " " b).
  induction a as [|c a IH].
  - reflexivity.
  - cbn [append splitOnWhitespace]. rewrite IH.
    destruct (isAsciiWhitespace c); [reflexivity|].
    pose proof (splitOnWhitespace_nonempty a) as Hne.
    destruct (splitOnWhitespace a) as [|w ws]; [contradiction | reflexivity].
Qed.

Lemma classTokens_space (a b : string) :
  classTokens (a ++ " " ++ b) = classTokens a ++ classTokens b.
Proof.
  unfold classTokens. now rewrite splitOnWhitespace_space, filter_app.
Qed.

Lemma fixed_classes_lack_w_full (s : ButtonSize) (v : ButtonVariant) :
  ~ In "w-full"
      (classTokens baseClasses ++ classTokens (sizeClasses s)
       ++ classTokens (variantClasses v)).
Proof.
  destruct s, v; vm_compute; intuition discriminate.
Qed.

(** X15: seen as class tokens, the button's class string is the base
    classes, the classes of its size, the classes of its variant, [w-full]
    if [fullWidth] is set, and the caller's classes, in this order; the
    double spaces left by an empty part add nothing.  So the button has
    the class [w-full] exactly when [fullWidth] is set or the caller passes
    it in [className]. *)
Theorem buttonClasses_tokens (p : ButtonProps) :
  classTokens (buttonClasses p)
  = classTokens baseClasses
    ++ classTokens (sizeClasses (size p))
    ++ classTokens (variantClasses (variant p))
    ++ (if fullWidth p then ["w-full"] else [])
    ++ classTokens (className p)
  /\ (In "w-full" (classTokens (buttonClasses p))
      <-> fullWidth p = true \/ In "w-full" (classTokens (className p))).
Proof.
  assert (Htok : classTokens (buttonClasses p)
                 = classTokens baseClasses
                   ++ classTokens (sizeClasses (size p))
                   ++ classTokens (variantClasses (variant p))
                   ++ (if fullWidth p then ["w-full"] else [])
                   ++ classTokens (className p)).
  { unfold buttonClasses. rewrite !classTokens_space.
    unfold widthClasses. now destruct (fullWidth p). }
  split; [exact Htok|].
  rewrite Htok.
  pose proof (fixed_classes_lack_w_full (size p) (variant p)) as Hfixed.
  rewrite !in_app_iff in *. split.
  - intros [H | [H | [H | [H | H]]]]; try tauto.
    destruct (fullWidth p); [now left | destruct H].
  - intros [H | H]; [|tauto].
    rewrite H. right; right; right; left. now left.
Qed.

End ButtonFacts.

(** ** More runs on concrete hosts *)

Section MoreRuns.
Import Scenarios Hosts.

Example default_button_tokens :
  Dom.classTokens (Button.buttonClasses Button.defaultProps)
  = ["inline-flex"; "items-center"; "justify-center"; "rounded-md";
     "font-medium"; "transition-colors"; "focus:outline-none";
     "focus:ring-2"; "focus:ring-offset-2"; "focus:ring-indigo-500";
     "px-4"; "py-2"; "text-sm";
     "bg-indigo-600"; "text-white"; "hover:bg-indigo-700";
     "disabled:bg-indigo-300"].
Proof. reflexivity. Qed.

Lemma closes_exactly_on_witness :
  isOpen {| isOpen := true; searchTerm := "bl" |} = true
  /\ isOpen (fst (step colours {| isOpen := true; searchTerm := "bl" |}
                    (KeyDown "Escape"))) = false.
Proof.
  split; [reflexivity|].
  apply (closes_exactly_on colours {| isOpen := true; searchTerm := "bl" |}
           (KeyDown "Escape")).
  - reflexivity.
  - now left.
Defined.

Lemma opens_exactly_on_witness :
  isOpen initialState = false
  /\ isOpen (fst (step twoSelected initialState (Click (ChipLabel "Red"))))
     = true.
Proof.
  split; [reflexivity|].
  apply (opens_exactly_on twoSelected initialState (Click (ChipLabel "Red"))).
  - reflexivity.
  - exists (ChipLabel "Red"). split; [reflexivity|]. split.
    + simpl. tauto.
    + intros v Hin. simpl in Hin.
      destruct Hin as [H|[H|[H|[H|[]]]]]; discriminate H.
Defined.

Lemma focus_follows_open_witness :
  isOpen initialState = false
  /\ snd (step colours initialState (Click ContainerDiv)) = [FocusInput].
Proof.
  split; [reflexivity|].
  apply (focus_follows_open colours initialState (Click ContainerDiv));
    reflexivity.
Defined.

Lemma session_keeps_selection_duplicate_free_witness :
  NoDup (selectedValues colours) /\ NoDup ["Blue"].
Proof.
  assert (Hnd : NoDup (selectedValues colours)) by constructor.
  split; [exact Hnd|].
  apply (session_keeps_selection_duplicate_free Js.toLowerCaseAscii
           colours initialState
           [Click ContainerDiv; Click (OptionDiv "Red");
            Click (OptionDiv "Blue"); Click (RemoveIcon "Red")]
           (feedBack colours [OnChange ["Blue"]])
           {| isOpen := true; searchTerm := "" |}
           [FocusInput; OnChange ["Red"]; FocusInput;
            OnChange ["Red"; "Blue"]; FocusInput; OnChange ["Blue"]]).
  - reflexivity.
  - exact Hnd.
Defined.

Lemma session_keeps_selection_within_options_witness :
  incl (selectedValues redSelected) (options redSelected)
  /\ incl ["Red"; "Green"] ["Red"; "Green"; "Blue"].
Proof.
  assert (Hincl : incl (selectedValues redSelected) (options redSelected)).
  { intros x [<- | []]. simpl. now left. }
  split; [exact Hincl|].
  apply (session_keeps_selection_within_options Js.toLowerCaseAscii
           redSelected initialState
           [Click ToggleButton; InputChange "EE"; Click (OptionDiv "Green")]
           (feedBack redSelected [OnChange ["Red"; "Green"]])
           {| isOpen := true; searchTerm := "" |}
           [FocusInput; OnChange ["Red"; "Green"]; FocusInput]).
  - reflexivity.
  - exact Hincl.
Defined.

Lemma select_then_remove_restores_witness :
  rendered Js.toLowerCaseAscii redSelected
    {| isOpen := true; searchTerm := "l" |} (OptionDiv "Blue") = true
  /\ exists p' out,
      run Js.toLowerCaseAscii redSelected
        {| isOpen := true; searchTerm := "l" |}
        [Click (OptionDiv "Blue"); Click (RemoveButton "Blue")]
      = Some (p', {| isOpen := true; searchTerm := "" |}, out)
      /\ onChangeCalls out = [["Red"; "Blue"]; ["Red"]]
      /\ selectedValues p' = ["Red"]
      /\ options p' = ["Red"; "Green"; "Blue"].
Proof.
  split; [reflexivity|].
  apply (select_then_remove_restores Js.toLowerCaseAscii redSelected
           {| isOpen := true; searchTerm := "l" |} "Blue").
  reflexivity.
Defined.

Lemma selected_candidate_leaves_picker_witness :
  rendered Js.toLowerCaseAscii colours
    {| isOpen := true; searchTerm := "re" |} (OptionDiv "Green") = true
  /\ exists p' st' out,
      run Js.toLowerCaseAscii colours
        {| isOpen := true; searchTerm := "re" |} [Click (OptionDiv "Green")]
      = Some (p', st', out)
      /\ isOpen st' = true
      /\ In "Green" (chips (render Js.toLowerCaseAscii p' st'))
      /\ ~ In "Green" (visibleCandidates (render Js.toLowerCaseAscii p' st')).
Proof.
  split; [reflexivity|].
  apply (selected_candidate_leaves_picker Js.toLowerCaseAscii colours
           {| isOpen := true; searchTerm := "re" |} "Green").
  reflexivity.
Defined.

Lemma empty_term_lists_all_unselected_witness :
  Js.toLowerCaseAscii "" = ""
  /\ visibleCandidates
       (render Js.toLowerCaseAscii redSelected
          {| isOpen := true; searchTerm := "" |})
     = ["Green"; "Blue"].
Proof.
  split; [reflexivity|].
  apply (empty_term_lists_all_unselected Js.toLowerCaseAscii redSelected
           {| isOpen := true; searchTerm := "" |});
    reflexivity.
Defined.

Lemma longer_term_narrows_witness :
  Js.Substring (Js.toLowerCaseAscii "e") (Js.toLowerCaseAscii "Re")
  /\ In "Red"
       (filteredOptions Js.toLowerCaseAscii colours
          {| isOpen := true; searchTerm := "e" |}).
Proof.
  assert (Hsub : Js.Substring (Js.toLowerCaseAscii "e")
                   (Js.toLowerCaseAscii "Re"))
    by (exists "r", ""; reflexivity).
  split; [exact Hsub|].
  apply (longer_term_narrows Js.toLowerCaseAscii colours true true
           "e" "Re" "Red").
  - exact Hsub.
  - simpl. now left.
Defined.

Lemma presentation_props_do_not_matter_witness :
  selectedValues colours = selectedValues coloursInError
  /\ step colours {| isOpen := true; searchTerm := "re" |}
       (Click (OptionDiv "Red"))
     = step coloursInError {| isOpen := true; searchTerm := "re" |}
         (Click (OptionDiv "Red")).
Proof.
  split; [reflexivity|].
  apply (presentation_props_do_not_matter Js.toLowerCaseAscii colours
           coloursInError {| isOpen := true; searchTerm := "re" |}).
  reflexivity.
Defined.

End MoreRuns.
